(** * MLflow front-end artefacts: sidebar tree, GraphQL codegen configuration, icon renderers

    The development follows four TypeScript sources:
    - [docs/sidebars.ts]: the Docusaurus sidebar tree,
    - [mlflow/server/js/src/graphql/graphql-codegen.ts]: the codegen configuration,
    - [.../Icon/__generated/icons/PlusMinusSquareIcon.tsx] and the source of
      the [FileIcon] component: two generated icon components.

    Object and array literals are embedded as values of a small JavaScript
    value type; the JSX of the icon components is embedded over React's
    element constructor. *)

From Stdlib Require Import String List Bool ZArith Lia.
From stdpp Require Import base strings list gmap.

Set Warnings "-register-all".
Open Scope string_scope.
Open Scope list_scope.

(** ** JavaScript values as the sources write them *)

Module Js.

(** Object literals keep their properties in the order of the source text. *)
Inductive value : Type :=
| Undefined
| Str (s : string)
| Bool (b : bool)
| Arr (elems : list value)
| Obj (fields : list (string * value)).

(** One step of a position inside a value: an array index or a property name. *)
Inductive step : Type :=
| Idx (i : nat)
| Key (k : string).

Definition path := list step.

(** [get k fs]: the binding of [k] in an object literal.  When a literal
    repeats a property name, the later binding wins. *)
Fixpoint get (k : string) (fs : list (string * value)) : option value :=
  match fs with
  | [] => None
  | (k', v) :: rest =>
      match get k rest with
      | Some w => Some w
      | None => if String.eqb k k' then Some v else None
      end
  end.

(** Property access [v.k]; a missing property reads as [undefined]. *)
Definition prop (k : string) (v : value) : value :=
  match v with
  | Obj fs => match get k fs with Some w => w | None => Undefined end
  | _ => Undefined
  end.

Definition elements (v : value) : list value :=
  match v with
  | Arr l => l
  | _ => []
  end.

Definition keys (fs : list (string * value)) : list string := map fst fs.

(** Every object found inside a value, with its position, parents first and
    siblings in source order. *)
Fixpoint objects (here : path) (v : value) : list (path * list (string * value)) :=
  match v with
  | Undefined | Str _ | Bool _ => []
  | Arr l =>
      (fix each (i : nat) (l : list value) :=
         match l with
         | [] => []
         | x :: rest => objects (here ++ [Idx i]) x ++ each (S i) rest
         end) 0 l
  | Obj fs =>
      (here, fs) ::
      (fix each (fs : list (string * value)) :=
         match fs with
         | [] => []
         | (k, x) :: rest => objects (here ++ [Key k]) x ++ each rest
         end) fs
  end.

Definition step_eqb (a b : step) : bool :=
  match a, b with
  | Idx i, Idx j => Nat.eqb i j
  | Key k, Key l => String.eqb k l
  | _, _ => false
  end.

Fixpoint path_eqb (p q : path) : bool :=
  match p, q with
  | [], [] => true
  | a :: p', b :: q' => step_eqb a b && path_eqb p' q'
  | _, _ => false
  end.

End Js.

(** ** docs/sidebars.ts *)

Module Sidebars.
Import Js.

(** The module-level constant [sidebars].  [apiReferencePrefix] is imported
    from [./docusaurusConfigUtils]; the literal calls it five times, inside
    the template literals of the API reference links. *)
Definition sidebars (apiReferencePrefix : unit -> string) : value :=
Obj [
  ("docsSidebar", Arr [
    Obj [
      ("type", Str "doc");
      ("id", Str "index");
      ("className", Str "sidebar-top-level-category")
    ];
    Obj [
      ("type", Str "category");
      ("label", Str "Getting Started");
      ("className", Str "sidebar-top-level-category");
      ("items", Arr [
        Obj [
          ("type", Str "doc");
          ("id", Str "getting-started/intro-quickstart/index");
          ("label", Str "Quickstart")
        ];
        Obj [("type", Str "doc"); ("id", Str "getting-started/running-notebooks/index")];
        Obj [("type", Str "doc"); ("id", Str "getting-started/databricks-trial/index")];
        Obj [
          ("type", Str "category");
          ("label", Str "More Tutorials");
          ("items", Arr [
            Obj [
              ("type", Str "doc");
              ("label", Str "Hyperparameter Tuning Tutorial");
              ("id", Str "getting-started/quickstart-2/index")
            ];
            Obj [
              ("type", Str "category");
              ("label", Str "Model Registry Tutorial");
              ("items", Arr [
                Obj [
                  ("type", Str "autogenerated");
                  ("dirName", Str "getting-started/registering-first-model")
                ]
              ])
            ];
            Obj [
              ("type", Str "doc");
              ("id", Str "getting-started/tracking-server-overview/index")
            ]
          ])
        ]
      ]);
      ("link", Obj [("type", Str "doc"); ("id", Str "getting-started/index")])
    ];
    Obj [
      ("type", Str "category");
      ("label", Str "Machine Learning 🧠");
      ("className", Str "sidebar-top-level-category");
      ("collapsed", Bool false);
      ("items", Arr [
        Obj [
          ("type", Str "category");
          ("label", Str "LLM / GenAI");
          ("items", Arr [
            Obj [("type", Str "doc"); ("label", Str "Overview"); ("id", Str "llms/index")];
            Obj [
              ("type", Str "category");
              ("label", Str "Integrations");
              ("items", Arr [
                Obj [
                  ("type", Str "category");
                  ("label", Str "OpenAI");
                  ("items", Arr [
                    Obj [("type", Str "autogenerated"); ("dirName", Str "llms/openai")]
                  ]);
                  ("link", Obj [("type", Str "doc"); ("id", Str "llms/openai/index")])
                ];
                Obj [
                  ("type", Str "category");
                  ("label", Str "LangChain");
                  ("items", Arr [
                    Obj [("type", Str "autogenerated"); ("dirName", Str "llms/langchain")]
                  ]);
                  ("link", Obj [("type", Str "doc"); ("id", Str "llms/langchain/index")])
                ];
                Obj [("type", Str "doc"); ("id", Str "llms/dspy/index"); ("label", Str "DSPy")];
                Obj [
                  ("type", Str "doc");
                  ("id", Str "llms/llama-index/index");
                  ("label", Str "LlamaIndex")
                ];
                Obj [
                  ("type", Str "category");
                  ("label", Str "Transformers");
                  ("items", Arr [
                    Obj [("type", Str "autogenerated"); ("dirName", Str "llms/transformers")]
                  ]);
                  ("link", Obj [("type", Str "doc"); ("id", Str "llms/transformers/index")])
                ];
                Obj [
                  ("type", Str "category");
                  ("label", Str "Sentence Transformers");
                  ("items", Arr [
                    Obj [
                      ("type", Str "autogenerated");
                      ("dirName", Str "llms/sentence-transformers")
                    ]
                  ]);
                  ("link", Obj [("type", Str "doc"); ("id", Str "llms/sentence-transformers/index")])
                ];
                Obj [
                  ("type", Str "link");
                  ("href", Str "/tracing/integrations/");
                  ("label", Str "More")
                ]
              ])
            ];
            Obj [
              ("type", Str "link");
              ("label", Str "Tracing (Observability)");
              ("href", Str "/tracing/")
            ];
            Obj [
              ("type", Str "category");
              ("label", Str "Evaluation");
              ("link", Obj [("type", Str "doc"); ("id", Str "llms/llm-evaluate/index")]);
              ("items", Arr [
                Obj [("type", Str "autogenerated"); ("dirName", Str "llms/llm-evaluate")]
              ])
            ];
            Obj [
              ("type", Str "category");
              ("label", Str "ChatModel");
              ("items", Arr [
                Obj [
                  ("type", Str "doc");
                  ("id", Str "llms/chat-model-intro/index");
                  ("label", Str "What is ChatModel?")
                ];
                Obj [
                  ("type", Str "doc");
                  ("id", Str "llms/chat-model-guide/index");
                  ("label", Str "Advanced Guide")
                ];
                Obj [
                  ("type", Str "doc");
                  ("id", Str "llms/custom-pyfunc-for-llms/index");
                  ("label", Str "More Customization")
                ]
              ])
            ];
            Obj [
              ("type", Str "category");
              ("label", Str "RAG");
              ("items", Arr [
                Obj [
                  ("type", Str "doc");
                  ("id", Str "llms/rag/index");
                  ("label", Str "What is RAG?")
                ];
                Obj [("type", Str "doc"); ("id", Str "llms/rag/notebooks/index")]
              ])
            ];
            Obj [
              ("type", Str "doc");
              ("label", Str "Prompt Engineering");
              ("id", Str "llms/prompt-engineering/index")
            ]
          ]);
          ("link", Obj [("type", Str "doc"); ("id", Str "llms/index")])
        ];
        Obj [
          ("type", Str "category");
          ("label", Str "Deep Learning");
          ("items", Arr [
            Obj [("type", Str "autogenerated"); ("dirName", Str "deep-learning")]
          ]);
          ("link", Obj [("type", Str "doc"); ("id", Str "deep-learning/index")])
        ];
        Obj [
          ("type", Str "category");
          ("label", Str "Traditional ML");
          ("items", Arr [
            Obj [("type", Str "autogenerated"); ("dirName", Str "traditional-ml")]
          ]);
          ("link", Obj [("type", Str "doc"); ("id", Str "traditional-ml/index")])
        ]
      ])
    ];
    Obj [
      ("type", Str "category");
      ("label", Str "Build 🔨 ");
      ("className", Str "sidebar-top-level-category");
      ("collapsed", Bool false);
      ("items", Arr [
        Obj [
          ("type", Str "category");
          ("label", Str "MLflow Tracking");
          ("items", Arr [
            Obj [("type", Str "doc"); ("id", Str "tracking/index")];
            Obj [
              ("type", Str "link");
              ("href", Str "/getting-started/intro-quickstart/");
              ("label", Str "Quickstart")
            ];
            Obj [("type", Str "doc"); ("id", Str "tracking/autolog/index")];
            Obj [
              ("type", Str "category");
              ("label", Str "Tracking Server");
              ("items", Arr [
                Obj [("type", Str "doc"); ("id", Str "tracking/artifacts-stores/index")];
                Obj [("type", Str "doc"); ("id", Str "tracking/backend-stores/index")];
                Obj [
                  ("type", Str "category");
                  ("label", Str "Tutorials");
                  ("items", Arr [
                    Obj [("type", Str "autogenerated"); ("dirName", Str "tracking/tutorials")]
                  ])
                ]
              ]);
              ("link", Obj [("type", Str "doc"); ("id", Str "tracking/server/index")])
            ];
            Obj [
              ("type", Str "category");
              ("label", Str "Searching Runs & Experiments");
              ("items", Arr [
                Obj [("type", Str "doc"); ("id", Str "search-runs/index")];
                Obj [("type", Str "doc"); ("id", Str "search-experiments/index")]
              ])
            ];
            Obj [("type", Str "doc"); ("id", Str "system-metrics/index")]
          ]);
          ("link", Obj [("type", Str "doc"); ("id", Str "tracking/index")])
        ];
        Obj [
          ("type", Str "category");
          ("label", Str "MLflow Model");
          ("items", Arr [
            Obj [("type", Str "autogenerated"); ("dirName", Str "model")]
          ])
        ];
        Obj [("type", Str "doc"); ("id", Str "recipes/index")]
      ])
    ];
    Obj [
      ("type", Str "category");
      ("label", Str "Evaluate & Monitor 📊");
      ("className", Str "sidebar-top-level-category");
      ("collapsed", Bool false);
      ("items", Arr [
        Obj [
          ("type", Str "doc");
          ("id", Str "model-evaluation/index");
          ("label", Str "MLflow Evaluation")
        ];
        Obj [
          ("type", Str "category");
          ("label", Str "MLflow Tracing (Observability)");
          ("items", Arr [
            Obj [("type", Str "autogenerated"); ("dirName", Str "tracing")]
          ]);
          ("link", Obj [("type", Str "doc"); ("id", Str "tracing/index")])
        ];
        Obj [("type", Str "doc"); ("id", Str "dataset/index"); ("label", Str "MLflow Dataset")]
      ])
    ];
    Obj [
      ("type", Str "category");
      ("label", Str "Deploy 🚀");
      ("className", Str "sidebar-top-level-category");
      ("collapsed", Bool false);
      ("items", Arr [
        Obj [("type", Str "doc"); ("id", Str "model-registry/index")];
        Obj [
          ("type", Str "category");
          ("label", Str "MLflow Serving");
          ("items", Arr [
            Obj [("type", Str "autogenerated"); ("dirName", Str "deployment")]
          ])
        ];
        Obj [
          ("type", Str "category");
          ("label", Str "MLflow AI Gateway");
          ("link", Obj [("type", Str "doc"); ("id", Str "llms/deployments/index")]);
          ("items", Arr [
            Obj [("type", Str "autogenerated"); ("dirName", Str "llms/deployments")]
          ])
        ]
      ])
    ];
    Obj [
      ("type", Str "category");
      ("label", Str "Team Collaboration 👥");
      ("className", Str "sidebar-top-level-category");
      ("collapsed", Bool true);
      ("items", Arr [
        Obj [
          ("type", Str "link");
          ("href", Str "/tracking/#tracking-setup");
          ("label", Str "Self-Hosting")
        ];
        Obj [
          ("type", Str "link");
          ("href", Str "/#running-mlflow-anywhere");
          ("label", Str "Managed Services")
        ];
        Obj [("type", Str "doc"); ("id", Str "auth/index"); ("label", Str "Access Control")];
        Obj [("type", Str "doc"); ("id", Str "projects/index"); ("label", Str "MLflow Projects")]
      ])
    ];
    Obj [
      ("type", Str "category");
      ("label", Str "API References");
      ("className", Str "sidebar-top-level-category");
      ("collapsed", Bool true);
      ("items", Arr [
        Obj [
          ("type", Str "link");
          ("label", Str "Python API");
          ("href", Str (apiReferencePrefix tt +:+ "api_reference/python_api/index.html"))
        ];
        Obj [
          ("type", Str "link");
          ("label", Str "Java API");
          ("href", Str (apiReferencePrefix tt +:+ "api_reference/java_api/index.html"))
        ];
        Obj [
          ("type", Str "link");
          ("label", Str "R API");
          ("href", Str (apiReferencePrefix tt +:+ "api_reference/R-api.html"))
        ];
        Obj [
          ("type", Str "link");
          ("label", Str "REST API");
          ("href", Str (apiReferencePrefix tt +:+ "api_reference/rest-api.html"))
        ];
        Obj [
          ("type", Str "link");
          ("label", Str "CLI");
          ("href", Str (apiReferencePrefix tt +:+ "cli.html"))
        ]
      ])
    ];
    Obj [
      ("type", Str "category");
      ("label", Str "More");
      ("collapsed", Bool true);
      ("className", Str "sidebar-top-level-category");
      ("items", Arr [
        Obj [
          ("type", Str "link");
          ("label", Str "Contributing");
          ("href", Str "https://github.com/mlflow/mlflow/blob/master/CONTRIBUTING.md")
        ];
        Obj [
          ("type", Str "link");
          ("label", Str "MLflow Blogs");
          ("href", Str "https://mlflow.org/blog/index.html")
        ];
        Obj [("type", Str "doc"); ("id", Str "plugins/index")]
      ])
    ]
  ])
].

(** [export default sidebars] *)
Definition export_default := sidebars.

(** The tree under the key [docsSidebar]. *)
Definition docsSidebar (apiReferencePrefix : unit -> string) : value :=
  prop "docsSidebar" (export_default apiReferencePrefix).

(** The nodes of the tree: the members of the top-level array, of every
    [items] array, and the objects under [link]. *)
Definition nodes (apiReferencePrefix : unit -> string) : list (path * list (string * value)) :=
  objects [] (docsSidebar apiReferencePrefix).


Definition string_of (o : option value) : option string :=
  match o with
  | Some (Str s) => Some s
  | _ => None
  end.

Definition kind_of (fs : list (string * value)) : option string :=
  string_of (get "type" fs).

Definition has_kind (k : string) (fs : list (string * value)) : bool :=
  match kind_of fs with
  | Some t => String.eqb t k
  | None => false
  end.


(** Nodes that reference a document by id: objects of type [doc] with an
    [id], wherever they stand (as an item or under a category's [link]). *)
Definition doc_refs (apiReferencePrefix : unit -> string) : list (path * string) :=
  flat_map
    (fun n : path * list (string * value) =>
       if has_kind "doc" n.2
       then match string_of (get "id" n.2) with
            | Some i => [(n.1, i)]
            | None => []
            end
       else [])
    (nodes apiReferencePrefix).

(** [link_of_parent a b]: [a] is the [link] field of a category and [b] is
    a member of that category's own [items] array. *)
Definition link_of_parent (a b : path) : bool :=
  match rev a, rev b with
  | Key ka :: qa, Idx _ :: Key kb :: qb =>
      String.eqb ka "link" && String.eqb kb "items" && path_eqb qa qb
  | _, _ => false
  end.

Definition distinct_ids_or_own_link (r1 r2 : path * string) : bool :=
  path_eqb r1.1 r2.1
  || negb (String.eqb r1.2 r2.2)
  || link_of_parent r1.1 r2.1
  || link_of_parent r2.1 r1.1.

(** Shape checks, one per kind. *)
Definition is_string (o : option value) : bool :=
  match o with
  | Some (Str _) => true
  | _ => false
  end.

Definition is_doc_ref (v : value) : bool :=
  match v with
  | Obj fs => has_kind "doc" fs && is_string (get "id" fs)
  | _ => false
  end.

Definition nonempty_array (o : option value) : bool :=
  match o with
  | Some (Arr (_ :: _)) => true
  | _ => false
  end.

Definition well_formed (fs : list (string * value)) : bool :=
  match kind_of fs with
  | Some t =>
      if String.eqb t "doc" then is_string (get "id" fs)
      else if String.eqb t "category" then
        is_string (get "label" fs)
        && nonempty_array (get "items" fs)
        && match get "link" fs with
           | Some l => is_doc_ref l
           | None => true
           end
      else if String.eqb t "link" then
        is_string (get "href" fs) && is_string (get "label" fs)
      else if String.eqb t "autogenerated" then is_string (get "dirName" fs)
      else false
  | None => false
  end.

(** How a node is called in a listing: a doc by its id, an autogenerated
    node by its directory, a category or a link by its label. *)
Definition name_of (v : value) : value :=
  match v with
  | Obj fs =>
      if has_kind "doc" fs then prop "id" v
      else if has_kind "autogenerated" fs then prop "dirName" v
      else prop "label" v
  | _ => Undefined
  end.

(** The ordered children of every level: the top-level array first, then
    the [items] array of every node that has one, in source order. *)
Definition levels (apiReferencePrefix : unit -> string) : list (path * list value) :=
  ([], map name_of (elements (docsSidebar apiReferencePrefix))) ::
  flat_map
    (fun n : path * list (string * value) =>
       match get "items" n.2 with
       | Some its => [(n.1, map name_of (elements its))]
       | None => []
       end)
    (nodes apiReferencePrefix).

(** A node of one kind with the fields that kind needs. *)
Inductive WellFormed (fs : list (string * value)) : Prop :=
| wf_doc :
    get "type" fs = Some (Str "doc") ->
    (exists i, get "id" fs = Some (Str i)) ->
    WellFormed fs
| wf_category :
    get "type" fs = Some (Str "category") ->
    (exists l, get "label" fs = Some (Str l)) ->
    (exists first rest, get "items" fs = Some (Arr (first :: rest))) ->
    (forall l, get "link" fs = Some l ->
       exists lfs i, l = Obj lfs /\ get "type" lfs = Some (Str "doc")
                     /\ get "id" lfs = Some (Str i)) ->
    WellFormed fs
| wf_link :
    get "type" fs = Some (Str "link") ->
    (exists h, get "href" fs = Some (Str h)) ->
    (exists l, get "label" fs = Some (Str l)) ->
    WellFormed fs
| wf_autogenerated :
    get "type" fs = Some (Str "autogenerated") ->
    (exists d, get "dirName" fs = Some (Str d)) ->
    WellFormed fs.

(** The first link under "API References", read back from the tree. *)
Definition python_api_href (apiReferencePrefix : unit -> string) : value :=
  prop "href"
    (nth 0 (elements (prop "items"
              (nth 7 (elements (docsSidebar apiReferencePrefix)) Undefined)))
       Undefined).

End Sidebars.

(** ** mlflow/server/js/src/graphql/graphql-codegen.ts *)

Module Codegen.
Import Js.

(** The module-level constant [config]; every property is a literal. *)
Definition config : value :=
  Obj [
    ("schema", Arr [Str "./src/graphql/autogenerated_schema.gql"]);
    ("documents", Arr [Str "src/**/!(*.test).js*"; Str "src/**/!(*.test).ts*"]);
    ("config", Obj [
      ("avoidOptionals", Obj [("field", Bool true)]);
      ("namingConvention", Obj [("enumValues", Str "change-case-all#constantCase")]);
      ("nonOptionalTypename", Bool true);
      ("omitOperationSuffix", Bool true);
      ("onlyOperationTypes", Bool true);
      ("scalars", Obj [
        ("GraphQLAnyValue", Str "any");
        ("Long", Str "number");
        ("LongString", Str "string");
        ("StringMap", Str "Record<string, string>");
        ("JSON", Str "any");
        ("WellKnownFieldMask", Str "any");
        ("WellKnownTimestamp", Str "any");
        ("WellKnownDuration", Str "any")
      ]);
      ("skipTypeNameForRoot", Bool true);
      ("strictScalars", Bool true)
    ]);
    ("generates", Obj [
      ("src/graphql/__generated__/graphql.ts", Obj [
        ("plugins", Arr [Str "graphql-codegen-typescript-operation-types"; Str "typescript-operations"])
      ])
    ])
  ].

(** [export default config] *)
Definition export_default : value := config.

(** An object literal read as a finite map from property names. *)
Definition as_map (v : value) : gmap string value :=
  match v with
  | Obj fs => list_to_map (rev fs)
  | _ => ∅
  end.

(** The scalar table [config.config.scalars]. *)
Definition scalars : value := prop "scalars" (prop "config" export_default).

Definition strictScalars : value := prop "strictScalars" (prop "config" export_default).

End Codegen.

(** ** Icon components: SvgPlusMinusSquareIcon and SvgFileIcon *)

Module Icons.

(** Values a caller can give to an attribute of an element. *)
Inductive AttrValue : Type :=
| AStr (s : string)
| ANum (n : Z)
| ABool (b : bool)
| AUndefined
| AFunction (closure : positive).

(** What React renders: text, or an element with its attributes and
    children.  React keeps the children under [props.children]; they are a
    field of their own here. *)
Inductive ReactNode : Type :=
| Text (s : string)
| Element (type : string) (attrs : gmap string AttrValue) (children : list ReactNode).

Definition el_type (e : ReactNode) : string :=
  match e with
  | Text _ => ""
  | Element t _ _ => t
  end.

Definition el_attrs (e : ReactNode) : gmap string AttrValue :=
  match e with
  | Text _ => ∅
  | Element _ a _ => a
  end.

Definition el_children (e : ReactNode) : list ReactNode :=
  match e with
  | Text _ => []
  | Element _ _ c => c
  end.

(** [React.SVGProps<SVGSVGElement>]: the attributes of the element and the
    optional [children] property. *)
Record SVGProps : Type := mkProps {
  attributes : gmap string AttrValue;
  children : option (list ReactNode)
}.

(** An object literal of attributes, [{ k1: v1, ..., kn: vn }]. *)
Definition literal (fs : list (string * AttrValue)) : SVGProps :=
  {| attributes := list_to_map (rev fs); children := None |}.

(** Object spread [{ ...target, ...source }]: the properties of [source]
    are copied over those of [target]. *)
Definition spread (target source : SVGProps) : SVGProps :=
  {| attributes := attributes source ∪ attributes target;
     children := match children source with
                 | Some c => Some c
                 | None => children target
                 end |}.

(** React's [RESERVED_PROPS]: names that never become props of an element. *)
Definition reserved_props : list string := ["key"; "ref"; "__self"; "__source"].

(** The properties of a config object that React copies into the props of
    the element it creates. *)
Definition own_props (config : gmap string AttrValue) : gmap string AttrValue :=
  foldr delete config reserved_props.

Section Render.
(** Whatever exists outside the arguments of a call: module bindings,
    globals, the document. *)
Context {World : Type}.

Definition Render (A : Type) : Type := World -> A * World.

Definition ret {A} (a : A) : Render A := fun w => (a, w).

Definition bind {A B} (m : Render A) (k : A -> Render B) : Render B :=
  fun w => let (a, w') := m w in k a w'.

(** [React.createElement(type, config, ...children)], which the JSX of the
    components stands for, as React 18 defines it: the props of the element
    are the properties of [config] other than the reserved names, which
    React takes out of the props ([key] and [ref] are kept beside them), and
    children given as arguments replace [config.children].  React itself is
    outside these sources. *)
Definition createElement (type : string) (config : SVGProps) (kids : list ReactNode)
  : Render ReactNode :=
  ret (Element type (own_props (attributes config))
         match kids with
         | [] => match children config with Some c => c | None => [] end
         | _ :: _ => kids
         end).

Definition emitted {A} (m : Render A) (w : World) : A := (m w).1.
End Render.

Notation "'let!' x ':=' m 'in' k" := (bind m (fun x => k))
  (at level 10, x name, m at level 200, k at level 200).

Section Components.
Context {World : Type}.

Definition svg_defaults : SVGProps :=
  literal [("xmlns", AStr "http://www.w3.org/2000/svg"); ("width", AStr "1em");
           ("height", AStr "1em"); ("fill", AStr "none"); ("viewBox", AStr "0 0 16 16")].

Definition SvgPlusMinusSquareIcon (props : SVGProps) : @Render World ReactNode :=
  let! plus_minus :=
    createElement "path"
      (literal [("fill", AStr "currentColor");
                ("d", AStr "M7.25 4.25V6H5.5v1.5h1.75v1.75h1.5V7.5h1.75V6H8.75V4.25zM10.5 10.5h-5V12h5z")])
      [] in
  let! square :=
    createElement "path"
      (literal [("fill", AStr "currentColor");
                ("fillRule", AStr "evenodd");
                ("d", AStr "M1.75 1a.75.75 0 0 0-.75.75v12.5c0 .414.336.75.75.75h12.5a.75.75 0 0 0 .75-.75V1.75a.75.75 0 0 0-.75-.75zm.75 12.5v-11h11v11z");
                ("clipRule", AStr "evenodd")])
      [] in
  createElement "svg" (spread svg_defaults props) [plus_minus; square].

Definition SvgFileIcon (props : SVGProps) : @Render World ReactNode :=
  let! sheet :=
    createElement "path"
      (literal [("fill", AStr "currentColor");
                ("fillRule", AStr "evenodd");
                ("d", AStr "M2 1.75A.75.75 0 0 1 2.75 1h6a.75.75 0 0 1 .53.22l4.5 4.5c.141.14.22.331.22.53v9a.75.75 0 0 1-.75.75H2.75a.75.75 0 0 1-.75-.75zm1.5.75v12h9V7H8.75A.75.75 0 0 1 8 6.25V2.5zm6 1.06 1.94 1.94H9.5z");
                ("clipRule", AStr "evenodd")])
      [] in
  createElement "svg" (spread svg_defaults props) [sheet].
End Components.

Definition no_props : SVGProps := literal [].

End Icons.

(** ** The exported icons: PlusMinusSquareIcon and FileIcon *)

Module IconWrappers.
Import Icons.

(** Values of the properties of an [IconProps] object: plain attribute
    values, a ref (absent when the optional [forwardedRef] is undefined), or
    a component, that is a function from props to markup. *)
Inductive PropValue (World : Type) : Type :=
| PAttr (v : AttrValue)
| PRef (r : option positive)
| PComponent (c : SVGProps -> @Render World ReactNode).

Arguments PAttr {World} v.
Arguments PRef {World} r.
Arguments PComponent {World} c.

(** The element [<Icon ... />] with the object its JSX attributes denote.
    [Icon] is imported from [../../Icon]; what it renders is not part of
    these sources. *)
Record IconElement (World : Type) : Type := mkIcon {
  icon_config : gmap string (PropValue World)
}.

Arguments mkIcon {World} icon_config.
Arguments icon_config {World} i.

Section Wrappers.
Context {World : Type}.

(** The attributes [ref={forwardedRef} {...props} component={c}]: the ref
    first, the caller's props copied over it, the component set last. *)
Definition icon_attributes (c : SVGProps -> @Render World ReactNode)
    (props : gmap string (PropValue World)) (forwardedRef : option positive)
  : gmap string (PropValue World) :=
  <["component" := PComponent c]> (props ∪ {["ref" := PRef forwardedRef]}).

(** The render function given to [forwardRef] in PlusMinusSquareIcon.tsx. *)
Definition PlusMinusSquareIcon (props : gmap string (PropValue World))
    (forwardedRef : option positive) : @Render World (IconElement World) :=
  ret (mkIcon (icon_attributes SvgPlusMinusSquareIcon props forwardedRef)).

(** The render function given to [forwardRef] for [FileIcon]. *)
Definition FileIcon (props : gmap string (PropValue World))
    (forwardedRef : option positive) : @Render World (IconElement World) :=
  ret (mkIcon (icon_attributes SvgFileIcon props forwardedRef)).

End Wrappers.

End IconWrappers.

(** ** The links of the sidebar *)

Module SidebarLinks.
Import Js Sidebars.

(** The href of every node of type [link], with the position of the node. *)
Definition link_hrefs (apiReferencePrefix : unit -> string) : list (path * value) :=
  flat_map
    (fun n : path * list (string * value) =>
       if has_kind "link" n.2
       then match get "href" n.2 with
            | Some h => [(n.1, h)]
            | None => []
            end
       else [])
    (nodes apiReferencePrefix).

(** A target that does not depend on the page it is followed from: a path
    from the site root or a URL with the http or https scheme. *)
Definition rooted_or_http (s : string) : bool :=
  String.prefix "/" s || String.prefix "http" s.

Definition href_rooted_or_http (h : value) : bool :=
  match h with
  | Str s => rooted_or_http s
  | _ => false
  end.

End SidebarLinks.

(** ** Properties stated on the definitions above *)

Module JsFacts.
Import Js.

Lemma step_eqb_eq a b : step_eqb a b = true <-> a = b.
Proof.
  destruct a, b; simpl; try (split; [discriminate | intros E; inversion E]).
  - rewrite Nat.eqb_eq. split; [intros -> | intros [= ->]]; reflexivity.
  - rewrite String.eqb_eq. split; [intros -> | intros [= ->]]; reflexivity.
Qed.

Lemma path_eqb_eq p q : path_eqb p q = true <-> p = q.
Proof.
  revert q; induction p as [|a p IH]; intros [|b q]; simpl;
    try (split; [discriminate | intros E; inversion E]); [tauto|].
  rewrite andb_true_iff, step_eqb_eq, IH.
  split; [intros [-> ->] | intros [= -> ->]]; auto.
Qed.

Lemma string_eqb_true (a b : string) : String.eqb a b = true -> a = b.
Proof. apply String.eqb_eq. Qed.

End JsFacts.

Module SidebarsSpec.
Import Js Sidebars JsFacts.

Lemma string_of_Some o s : string_of o = Some s -> o = Some (Str s).
Proof. destruct o as [[]|]; simpl; congruence. Qed.

Lemma is_string_true o : is_string o = true -> exists s, o = Some (Str s).
Proof. destruct o as [[]|]; simpl; try discriminate; eauto. Qed.

Lemma has_kind_true k fs : has_kind k fs = true -> get "type" fs = Some (Str k).
Proof.
  unfold has_kind, kind_of. destruct (string_of (get "type" fs)) as [t|] eqn:E; [|discriminate].
  intros H. apply string_eqb_true in H. subst. now apply string_of_Some.
Qed.


Lemma well_formed_true fs : well_formed fs = true -> WellFormed fs.
Proof.
  unfold well_formed, kind_of.
  destruct (string_of (get "type" fs)) as [t|] eqn:E; [|discriminate].
  apply string_of_Some in E.
  destruct (String.eqb t "doc") eqn:Hd.
  { apply string_eqb_true in Hd; subst. intros H. apply wf_doc; [exact E|].
    now apply is_string_true. }
  destruct (String.eqb t "category") eqn:Hc.
  { apply string_eqb_true in Hc; subst. rewrite !andb_true_iff. intros [[Hl Hi] Hk].
    apply wf_category; [exact E | now apply is_string_true | |].
    - destruct (get "items" fs) as [[| | |[|x r]|]|]; simpl in Hi; try discriminate. eauto.
    - intros l Hl'. rewrite Hl' in Hk. destruct l; simpl in Hk; try discriminate.
      apply andb_true_iff in Hk as [Hk1 Hk2].
      apply has_kind_true in Hk1. apply is_string_true in Hk2 as [i Hi'].
      eauto 6. }
  destruct (String.eqb t "link") eqn:Hl.
  { apply string_eqb_true in Hl; subst. rewrite andb_true_iff. intros [Hh Hb].
    apply wf_link; [exact E | now apply is_string_true | now apply is_string_true]. }
  destruct (String.eqb t "autogenerated") eqn:Ha; [|discriminate].
  apply string_eqb_true in Ha; subst. intros H.
  apply wf_autogenerated; [exact E | now apply is_string_true].
Qed.

Lemma Forall_of_forallb {A} (f : A -> bool) (P : A -> Prop) (l : list A) :
  (forall x, f x = true -> P x) -> forallb f l = true -> Forall P l.
Proof.
  intros Hf H. apply List.Forall_forall. intros x Hx.
  apply Hf. now apply (proj1 (forallb_forall f l) H).
Qed.


(** C10. Every node of the sidebar tree is well-formed for its kind: a doc
    has an id; a category has a label, a non-empty items array and, when it
    has a link, that link is a doc reference with an id; a link has an href
    and a label; an autogenerated node has a dirName. *)
Theorem every_node_well_formed (apiReferencePrefix : unit -> string) :
  Forall (fun n : path * list (string * value) => WellFormed n.2)
         (nodes apiReferencePrefix).
Proof.
  apply (Forall_of_forallb (fun n => well_formed n.2)).
  - intros n. apply well_formed_true.
  - vm_compute. reflexivity.
Qed.

Lemma link_of_parent_true a b :
  link_of_parent a b = true ->
  exists q i, a = q ++ [Key "link"] /\ b = q ++ [Key "items"; Idx i].
Proof.
  unfold link_of_parent.
  destruct (rev a) as [|[|ka] qa] eqn:Ea; try discriminate.
  destruct (rev b) as [|[i|] [|[|kb] qb]] eqn:Eb; try discriminate.
  rewrite !andb_true_iff. intros [[Hka Hkb] Hq].
  apply string_eqb_true in Hka, Hkb. apply path_eqb_eq in Hq. subst.
  exists (rev qb), i. split.
  - rewrite <- (List.rev_involutive a), Ea. reflexivity.
  - rewrite <- (List.rev_involutive b), Eb. simpl. now rewrite <- app_assoc.
Qed.

Lemma doc_refs_checked (apiReferencePrefix : unit -> string) :
  forallb (fun r1 => forallb (distinct_ids_or_own_link r1) (doc_refs apiReferencePrefix))
          (doc_refs apiReferencePrefix) = true.
Proof. vm_compute. reflexivity. Qed.

(** C2, as the specification states it, fails: the doc item "Overview" of
    the category "LLM / GenAI" and the [link] of that category are two
    distinct nodes, and both reference the document [llms/index]. *)
Lemma duplicate_doc_id_llms_index :
  In ([Idx 2; Key "items"; Idx 0; Key "items"; Idx 0], "llms/index")
     (doc_refs (fun _ => "/"))
  /\ In ([Idx 2; Key "items"; Idx 0; Key "link"], "llms/index")
        (doc_refs (fun _ => "/"))
  /\ [Idx 2; Key "items"; Idx 0; Key "items"; Idx 0]
     <> [Idx 2; Key "items"; Idx 0; Key "link"].
Proof.
  split; [|split].
  - vm_compute. do 7 right. left. reflexivity.
  - vm_compute. do 21 right. left. reflexivity.
  - discriminate.
Qed.

(** C2, amended. Two distinct nodes of the sidebar tree that reference a
    document by id have different ids, unless one of them is the [link]
    field of a category and the other is a doc item of that same
    category's [items] array. *)
Theorem doc_ids_distinct_up_to_own_link
    (apiReferencePrefix : unit -> string) (r1 r2 : path * string) :
  In r1 (doc_refs apiReferencePrefix) ->
  In r2 (doc_refs apiReferencePrefix) ->
  r1.1 <> r2.1 ->
  r1.2 <> r2.2
  \/ (exists q i, r1.1 = q ++ [Key "link"] /\ r2.1 = q ++ [Key "items"; Idx i])
  \/ (exists q i, r2.1 = q ++ [Key "link"] /\ r1.1 = q ++ [Key "items"; Idx i]).
Proof.
  intros H1 H2 Hne.
  pose proof (doc_refs_checked apiReferencePrefix) as Hall.
  rewrite forallb_forall in Hall. specialize (Hall r1 H1).
  rewrite forallb_forall in Hall. specialize (Hall r2 H2).
  unfold distinct_ids_or_own_link in Hall.
  rewrite !orb_true_iff in Hall.
  destruct Hall as [[[Hp | Hid] | Hl] | Hl].
  - apply path_eqb_eq in Hp. contradiction.
  - left. intros E. rewrite E, String.eqb_refl in Hid. discriminate.
  - right; left. now apply link_of_parent_true.
  - right; right. now apply link_of_parent_true.
Qed.

Lemma doc_ids_distinct_up_to_own_link_witness :
  [Idx 3; Key "items"; Idx 0; Key "link"]
  <> [Idx 3; Key "items"; Idx 0; Key "items"; Idx 0]
  /\
  ("tracking/index" <> "tracking/index"
  \/ (exists q i, [Idx 3; Key "items"; Idx 0; Key "link"] = q ++ [Key "link"]
                  /\ [Idx 3; Key "items"; Idx 0; Key "items"; Idx 0]
                     = q ++ [Key "items"; Idx i])
  \/ (exists q i, [Idx 3; Key "items"; Idx 0; Key "items"; Idx 0] = q ++ [Key "link"]
                  /\ [Idx 3; Key "items"; Idx 0; Key "link"]
                     = q ++ [Key "items"; Idx i])).
Proof.
  split; [discriminate|].
  apply (doc_ids_distinct_up_to_own_link (fun _ => "/")
           ([Idx 3; Key "items"; Idx 0; Key "link"], "tracking/index")
           ([Idx 3; Key "items"; Idx 0; Key "items"; Idx 0], "tracking/index")).
  - vm_compute. do 32 right. left. reflexivity.
  - vm_compute. do 24 right. left. reflexivity.
  - simpl. discriminate.
Defined.

(** C3, as the specification states it, fails: the exported value is not a
    fixed constant.  The href of the link "Python API" is built from the
    result of the call [apiReferencePrefix()] made while the module is
    evaluated, so two evaluations with different results of that call
    export different trees. *)
Lemma api_href_follows_prefix :
  python_api_href (fun _ => "/") = Str "/api_reference/python_api/index.html"
  /\ python_api_href (fun _ => "https://mlflow.org/docs/latest/")
     = Str "https://mlflow.org/docs/latest/api_reference/python_api/index.html"
  /\ export_default (fun _ => "/")
     <> export_default (fun _ => "https://mlflow.org/docs/latest/").
Proof.
  split; [reflexivity | split; [reflexivity |]].
  intros E.
  assert (H : python_api_href (fun _ => "/")
              = python_api_href (fun _ => "https://mlflow.org/docs/latest/")).
  { unfold python_api_href, docsSidebar. now rewrite E. }
  vm_compute in H. discriminate H.
Qed.

(** C3, amended. The exported tree is fixed except inside the category
    "API References": every other member of the top-level array is the same
    whatever [apiReferencePrefix()] returns, and that category consists of
    literals except for the href of its five links, each of which is the
    string returned by [apiReferencePrefix()] followed by a literal
    suffix. *)
Theorem tree_fixed_except_api_hrefs
    (apiReferencePrefix apiReferencePrefix' : unit -> string) (i : nat) :
  (i <> 7 ->
   elements (docsSidebar apiReferencePrefix) !! i
   = elements (docsSidebar apiReferencePrefix') !! i)
  /\ length (elements (docsSidebar apiReferencePrefix)) = 9
  /\ elements (docsSidebar apiReferencePrefix) !! 7
     = Some (Obj [
         ("type", Str "category");
         ("label", Str "API References");
         ("className", Str "sidebar-top-level-category");
         ("collapsed", Bool true);
         ("items", Arr (map
            (fun l : string * string =>
               Obj [("type", Str "link"); ("label", Str l.1);
                    ("href", Str (apiReferencePrefix tt +:+ l.2))])
            [("Python API", "api_reference/python_api/index.html");
             ("Java API", "api_reference/java_api/index.html");
             ("R API", "api_reference/R-api.html");
             ("REST API", "api_reference/rest-api.html");
             ("CLI", "cli.html")]))
       ]).
Proof.
  split; [intros Hi | split; reflexivity].
  do 7 (destruct i as [|i]; [reflexivity|]).
  destruct i as [|i]; [contradiction|].
  destruct i as [|i]; reflexivity.
Qed.

Lemma tree_fixed_except_api_hrefs_witness :
  3 <> 7
  /\ elements (docsSidebar (fun _ => "/")) !! 3
     = elements (docsSidebar (fun _ => "https://mlflow.org/docs/latest/")) !! 3.
Proof.
  split; [lia|].
  apply (proj1 (tree_fixed_except_api_hrefs
                  (fun _ => "/") (fun _ => "https://mlflow.org/docs/latest/") 3)).
  lia.
Defined.

(** C6. The exported tree keeps the authored order at every level: the
    top-level array and the [items] array of every node list their
    children in the order of the source (each child called by its id,
    label or dirName).  The top level is the index doc followed by the
    eight categories from "Getting Started" to "More". *)
Theorem levels_in_authored_order (apiReferencePrefix : unit -> string) :
  levels apiReferencePrefix =
    [([],
      [Str "index"; Str "Getting Started"; Str "Machine Learning 🧠"; Str "Build 🔨 ";
       Str "Evaluate & Monitor 📊"; Str "Deploy 🚀"; Str "Team Collaboration 👥";
       Str "API References"; Str "More"]);
     ([Idx 1],
      [Str "getting-started/intro-quickstart/index";
       Str "getting-started/running-notebooks/index";
       Str "getting-started/databricks-trial/index"; Str "More Tutorials"]);
     ([Idx 1; Key "items"; Idx 3],
      [Str "getting-started/quickstart-2/index"; Str "Model Registry Tutorial";
       Str "getting-started/tracking-server-overview/index"]);
     ([Idx 1; Key "items"; Idx 3; Key "items"; Idx 1],
      [Str "getting-started/registering-first-model"]);
     ([Idx 2],
      [Str "LLM / GenAI"; Str "Deep Learning"; Str "Traditional ML"]);
     ([Idx 2; Key "items"; Idx 0],
      [Str "llms/index"; Str "Integrations"; Str "Tracing (Observability)";
       Str "Evaluation"; Str "ChatModel"; Str "RAG"; Str "llms/prompt-engineering/index"]);
     ([Idx 2; Key "items"; Idx 0; Key "items"; Idx 1],
      [Str "OpenAI"; Str "LangChain"; Str "llms/dspy/index"; Str "llms/llama-index/index";
       Str "Transformers"; Str "Sentence Transformers"; Str "More"]);
     ([Idx 2; Key "items"; Idx 0; Key "items"; Idx 1; Key "items"; Idx 0],
      [Str "llms/openai"]);
     ([Idx 2; Key "items"; Idx 0; Key "items"; Idx 1; Key "items"; Idx 1],
      [Str "llms/langchain"]);
     ([Idx 2; Key "items"; Idx 0; Key "items"; Idx 1; Key "items"; Idx 4],
      [Str "llms/transformers"]);
     ([Idx 2; Key "items"; Idx 0; Key "items"; Idx 1; Key "items"; Idx 5],
      [Str "llms/sentence-transformers"]);
     ([Idx 2; Key "items"; Idx 0; Key "items"; Idx 3],
      [Str "llms/llm-evaluate"]);
     ([Idx 2; Key "items"; Idx 0; Key "items"; Idx 4],
      [Str "llms/chat-model-intro/index"; Str "llms/chat-model-guide/index";
       Str "llms/custom-pyfunc-for-llms/index"]);
     ([Idx 2; Key "items"; Idx 0; Key "items"; Idx 5],
      [Str "llms/rag/index"; Str "llms/rag/notebooks/index"]);
     ([Idx 2; Key "items"; Idx 1],
      [Str "deep-learning"]);
     ([Idx 2; Key "items"; Idx 2],
      [Str "traditional-ml"]);
     ([Idx 3],
      [Str "MLflow Tracking"; Str "MLflow Model"; Str "recipes/index"]);
     ([Idx 3; Key "items"; Idx 0],
      [Str "tracking/index"; Str "Quickstart"; Str "tracking/autolog/index";
       Str "Tracking Server"; Str "Searching Runs & Experiments";
       Str "system-metrics/index"]);
     ([Idx 3; Key "items"; Idx 0; Key "items"; Idx 3],
      [Str "tracking/artifacts-stores/index"; Str "tracking/backend-stores/index";
       Str "Tutorials"]);
     ([Idx 3; Key "items"; Idx 0; Key "items"; Idx 3; Key "items"; Idx 2],
      [Str "tracking/tutorials"]);
     ([Idx 3; Key "items"; Idx 0; Key "items"; Idx 4],
      [Str "search-runs/index"; Str "search-experiments/index"]);
     ([Idx 3; Key "items"; Idx 1],
      [Str "model"]);
     ([Idx 4],
      [Str "model-evaluation/index"; Str "MLflow Tracing (Observability)";
       Str "dataset/index"]);
     ([Idx 4; Key "items"; Idx 1],
      [Str "tracing"]);
     ([Idx 5],
      [Str "model-registry/index"; Str "MLflow Serving"; Str "MLflow AI Gateway"]);
     ([Idx 5; Key "items"; Idx 1],
      [Str "deployment"]);
     ([Idx 5; Key "items"; Idx 2],
      [Str "llms/deployments"]);
     ([Idx 6],
      [Str "Self-Hosting"; Str "Managed Services"; Str "auth/index"; Str "projects/index"]);
     ([Idx 7],
      [Str "Python API"; Str "Java API"; Str "R API"; Str "REST API"; Str "CLI"]);
     ([Idx 8],
      [Str "Contributing"; Str "MLflow Blogs"; Str "plugins/index"])]
.
Proof. vm_compute. reflexivity. Qed.

End SidebarsSpec.

Module CodegenSpec.
Import Js Codegen.

(** C4. The default export of graphql-codegen.ts is the literal object
    [config]: its keys are schema, documents, config and generates; the
    schema list is the single path of the autogenerated schema; the
    documents list is the two glob patterns for js and ts sources other
    than tests; and [generates] has one output target,
    src/graphql/__generated__/graphql.ts, with the two plugins
    graphql-codegen-typescript-operation-types and typescript-operations. *)
Theorem config_is_static_literal :
  export_default = config
  /\ match export_default with Obj fs => keys fs | _ => [] end
     = ["schema"; "documents"; "config"; "generates"]
  /\ prop "schema" export_default = Arr [Str "./src/graphql/autogenerated_schema.gql"]
  /\ prop "documents" export_default
     = Arr [Str "src/**/!(*.test).js*"; Str "src/**/!(*.test).ts*"]
  /\ prop "generates" export_default
     = Obj [("src/graphql/__generated__/graphql.ts",
             Obj [("plugins", Arr [Str "graphql-codegen-typescript-operation-types";
                                   Str "typescript-operations"])])]
  /\ size (as_map (prop "generates" export_default)) = 1.
Proof. repeat split; vm_compute; reflexivity. Qed.

(** C5. The scalar table of the codegen configuration is the eight-entry
    map from GraphQLAnyValue, Long, LongString, StringMap, JSON,
    WellKnownFieldMask, WellKnownTimestamp and WellKnownDuration to their
    TypeScript types, and [strictScalars] is [true]. *)
Theorem scalars_table_and_strictness :
  scalars = Obj [("GraphQLAnyValue", Str "any");
                 ("Long", Str "number");
                 ("LongString", Str "string");
                 ("StringMap", Str "Record<string, string>");
                 ("JSON", Str "any");
                 ("WellKnownFieldMask", Str "any");
                 ("WellKnownTimestamp", Str "any");
                 ("WellKnownDuration", Str "any")]
  /\ size (as_map scalars) = 8
  /\ (forall name : string,
        as_map scalars !! name
        = if decide (name = "GraphQLAnyValue") then Some (Str "any")
          else if decide (name = "Long") then Some (Str "number")
          else if decide (name = "LongString") then Some (Str "string")
          else if decide (name = "StringMap") then Some (Str "Record<string, string>")
          else if decide (name = "JSON") then Some (Str "any")
          else if decide (name = "WellKnownFieldMask") then Some (Str "any")
          else if decide (name = "WellKnownTimestamp") then Some (Str "any")
          else if decide (name = "WellKnownDuration") then Some (Str "any")
          else None)
  /\ strictScalars = Bool true.
Proof.
  split; [reflexivity|]. split; [vm_compute; reflexivity|]. split; [|reflexivity].
  intros name.
  change (as_map scalars) with
    (<["GraphQLAnyValue" := Str "any"]>
       (<["Long" := Str "number"]>
          (<["LongString" := Str "string"]>
             (<["StringMap" := Str "Record<string, string>"]>
                (<["JSON" := Str "any"]>
                   (<["WellKnownFieldMask" := Str "any"]>
                      (<["WellKnownTimestamp" := Str "any"]>
                         (<["WellKnownDuration" := Str "any"]> (∅ : gmap string value)))))))))
  .
  rewrite !lookup_insert, lookup_empty.
  repeat (destruct (decide (_ = name)) as [<-|?]; [reflexivity|]).
  repeat (destruct (decide (name = _)) as [->|?]; [congruence|]).
  reflexivity.
Qed.

End CodegenSpec.

Module IconsSpec.
Import Icons.

Lemma svg_defaults_attributes :
  attributes svg_defaults
  = {[ "xmlns" := AStr "http://www.w3.org/2000/svg"; "width" := AStr "1em";
       "height" := AStr "1em"; "fill" := AStr "none"; "viewBox" := AStr "0 0 16 16" ]}.
Proof. vm_compute. reflexivity. Qed.

Lemma spread_attributes (target source : SVGProps) (k : string) :
  attributes (spread target source) !! k
  = match attributes source !! k with
    | Some v => Some v
    | None => attributes target !! k
    end.
Proof.
  unfold spread; simpl. rewrite lookup_union.
  destruct (attributes source !! k), (attributes target !! k); reflexivity.
Qed.

Lemma own_props_lookup (config : gmap string AttrValue) (k : string) :
  own_props config !! k
  = if decide (k ∈ reserved_props) then None else config !! k.
Proof.
  unfold own_props, reserved_props. cbn [foldr].
  rewrite !lookup_delete.
  destruct (decide (k ∈ ["key"; "ref"; "__self"; "__source"])) as [Hin|Hout].
  - rewrite !elem_of_cons in Hin.
    destruct Hin as [->|[->|[->|[->|Hin]]]]; [reflexivity..|].
    now apply elem_of_nil in Hin.
  - rewrite !not_elem_of_cons in Hout. destruct Hout as (H1 & H2 & H3 & H4 & _).
    repeat (destruct (decide (_ = k)) as [<-|_]; [congruence|]).
    reflexivity.
Qed.

Lemma own_props_dom (config : gmap string AttrValue) :
  dom (own_props config) = dom config ∖ {[ "key"; "ref"; "__self"; "__source" ]}.
Proof.
  apply set_eq. intros k.
  rewrite elem_of_difference, !elem_of_dom, own_props_lookup.
  destruct (decide (k ∈ reserved_props)) as [Hin|Hout].
  - split; [intros [? [=]] | intros [_ Hn]; exfalso; apply Hn].
    unfold reserved_props in Hin. rewrite !elem_of_cons in Hin.
    rewrite !elem_of_union, !elem_of_singleton.
    destruct Hin as [->|[->|[->|[->|Hin]]]]; [tauto..|].
    now apply elem_of_nil in Hin.
  - split; [intros H; split; [exact H|] | intros [H _]; exact H].
    intros Hk. apply Hout. unfold reserved_props.
    rewrite !elem_of_union, !elem_of_singleton in Hk. rewrite !elem_of_cons. tauto.
Qed.

Section Invocation.
Context {World : Type}.
Implicit Types (w : World) (props : SVGProps).

Lemma SvgPlusMinusSquareIcon_emits w props :
  SvgPlusMinusSquareIcon props w
  = (Element "svg" (own_props (attributes props ∪ attributes svg_defaults))
       (el_children (emitted (SvgPlusMinusSquareIcon no_props) w)), w).
Proof. reflexivity. Qed.

Lemma SvgFileIcon_emits w props :
  SvgFileIcon props w
  = (Element "svg" (own_props (attributes props ∪ attributes svg_defaults))
       (el_children (emitted (SvgFileIcon no_props) w)), w).
Proof. reflexivity. Qed.
End Invocation.



(** C8. The path data of an icon does not depend on the caller: for every
    props object, with or without a [children] property, the children of
    the svg emitted by [SvgPlusMinusSquareIcon] are its two paths and the
    children of the svg emitted by [SvgFileIcon] are its one path, with
    their fixed [d] strings, as when the component is called with no
    props. *)
Theorem path_children_are_fixed {World : Type} (w : World) (props : SVGProps) :
  el_children (emitted (SvgPlusMinusSquareIcon props) w)
  = el_children (emitted (SvgPlusMinusSquareIcon no_props) w)
  /\ el_children (emitted (SvgPlusMinusSquareIcon props) w)
     = [Element "path"
          {[ "fill" := AStr "currentColor";
             "d" := AStr "M7.25 4.25V6H5.5v1.5h1.75v1.75h1.5V7.5h1.75V6H8.75V4.25zM10.5 10.5h-5V12h5z" ]}
          [];
        Element "path"
          {[ "fill" := AStr "currentColor";
             "fillRule" := AStr "evenodd";
             "d" := AStr "M1.75 1a.75.75 0 0 0-.75.75v12.5c0 .414.336.75.75.75h12.5a.75.75 0 0 0 .75-.75V1.75a.75.75 0 0 0-.75-.75zm.75 12.5v-11h11v11z";
             "clipRule" := AStr "evenodd" ]}
          []]
  /\ el_children (emitted (SvgFileIcon props) w)
     = el_children (emitted (SvgFileIcon no_props) w)
  /\ el_children (emitted (SvgFileIcon props) w)
     = [Element "path"
          {[ "fill" := AStr "currentColor";
             "fillRule" := AStr "evenodd";
             "d" := AStr "M2 1.75A.75.75 0 0 1 2.75 1h6a.75.75 0 0 1 .53.22l4.5 4.5c.141.14.22.331.22.53v9a.75.75 0 0 1-.75.75H2.75a.75.75 0 0 1-.75-.75zm1.5.75v12h9V7H8.75A.75.75 0 0 1 8 6.25V2.5zm6 1.06 1.94 1.94H9.5z";
             "clipRule" := AStr "evenodd" ]}
          []].
Proof.
  unfold emitted.
  rewrite SvgPlusMinusSquareIcon_emits, SvgFileIcon_emits.
  repeat split; vm_compute; reflexivity.
Qed.

End IconsSpec.

(** ** Further properties of the sidebar: how the tree depends on the prefix *)

Module SidebarLinksSpec.
Import Js Sidebars SidebarLinks JsFacts.

Lemma length_append (a b : string) :
  String.length (a +:+ b) = String.length a + String.length b.
Proof. induction a as [|c a IH]; simpl; [reflexivity | now rewrite IH]. Qed.

Lemma append_cancel_r (s a b : string) : a +:+ s = b +:+ s -> a = b.
Proof.
  revert b; induction a as [|c a IH]; intros [|d b] H.
  - reflexivity.
  - apply (f_equal String.length) in H. rewrite !length_append in H. simpl in H. lia.
  - apply (f_equal String.length) in H. rewrite !length_append in H. simpl in H. lia.
  - change (String c (a +:+ s) = String d (b +:+ s)) in H.
    injection H as -> H. f_equal. now apply IH.
Qed.

Lemma prefix_append (a x y : string) :
  String.prefix a x = true -> String.prefix a (x +:+ y) = true.
Proof.
  revert x; induction a as [|c a IH]; intros x H;
    [destruct (x +:+ y); reflexivity|].
  destruct x as [|d x]; [discriminate|].
  change (String.prefix (String c a) (String d (x +:+ y)) = true).
  simpl in *. destruct (Ascii.ascii_dec c d); [now apply IH | discriminate].
Qed.

Lemma rooted_or_http_append (x y : string) :
  rooted_or_http x = true -> rooted_or_http (x +:+ y) = true.
Proof.
  unfold rooted_or_http. rewrite !orb_true_iff.
  intros [H|H]; [left | right]; now apply prefix_append.
Qed.

Lemma append_cons (c : Ascii.ascii) (a s : string) :
  String c a +:+ s = String c (a +:+ s).
Proof. reflexivity. Qed.

Lemma append_nil (s : string) : "" +:+ s = s.
Proof. reflexivity. Qed.

Lemma prefix_cons (c d : Ascii.ascii) (a x : string) :
  String.prefix (String c a) (String d x)
  = if Ascii.ascii_dec c d then String.prefix a x else false.
Proof. reflexivity. Qed.

Lemma prefix_nil (x : string) : String.prefix "" x = true.
Proof. destruct x; reflexivity. Qed.

Lemma prefix_of_nil (c : Ascii.ascii) (a : string) : String.prefix (String c a) "" = false.
Proof. reflexivity. Qed.

Ltac prefix_steps :=
  rewrite ?append_cons, ?append_nil, ?prefix_cons, ?prefix_nil, ?prefix_of_nil.

Lemma rooted_or_http_before_cli (x : string) :
  rooted_or_http (x +:+ "cli.html") = true -> rooted_or_http x = true.
Proof.
  unfold rooted_or_http.
  destruct x as [|c1 [|c2 [|c3 [|c4 x]]]]; prefix_steps;
    repeat (match goal with
            | |- context [Ascii.ascii_dec ?a ?b] => destruct (Ascii.ascii_dec a b)
            end; try discriminate; prefix_steps);
    cbn [orb]; try discriminate; auto.
Qed.

Lemma link_hrefs_listed (apiReferencePrefix : unit -> string) :
  map snd (link_hrefs apiReferencePrefix)
  = [Str "/tracing/integrations/";
     Str "/tracing/";
     Str "/getting-started/intro-quickstart/";
     Str "/tracking/#tracking-setup";
     Str "/#running-mlflow-anywhere";
     Str (apiReferencePrefix tt +:+ "api_reference/python_api/index.html");
     Str (apiReferencePrefix tt +:+ "api_reference/java_api/index.html");
     Str (apiReferencePrefix tt +:+ "api_reference/R-api.html");
     Str (apiReferencePrefix tt +:+ "api_reference/rest-api.html");
     Str (apiReferencePrefix tt +:+ "cli.html");
     Str "https://github.com/mlflow/mlflow/blob/master/CONTRIBUTING.md";
     Str "https://mlflow.org/blog/index.html"].
Proof. reflexivity. Qed.

(** X1. The exported tree and the string returned by [apiReferencePrefix()]
    determine each other: two evaluations of the module export the same tree
    exactly when the call returned the same string. *)
Theorem same_tree_iff_same_prefix (apiReferencePrefix apiReferencePrefix' : unit -> string) :
  export_default apiReferencePrefix = export_default apiReferencePrefix'
  <-> apiReferencePrefix tt = apiReferencePrefix' tt.
Proof.
  split.
  - intros E.
    assert (H : python_api_href apiReferencePrefix = python_api_href apiReferencePrefix').
    { unfold python_api_href, docsSidebar. now rewrite E. }
    change (Str (apiReferencePrefix tt +:+ "api_reference/python_api/index.html")
            = Str (apiReferencePrefix' tt +:+ "api_reference/python_api/index.html")) in H.
    injection H as H. exact (append_cancel_r _ _ _ H).
  - intros E. unfold export_default, sidebars. rewrite E. reflexivity.
Qed.

(** X2. Every link of the sidebar has a target that starts at the site root
    or with http exactly when the string returned by [apiReferencePrefix()]
    does: the hand-written links all do, and the five API reference links
    begin with that string.  With an empty prefix the API links are relative
    to the current page. *)
Theorem links_rooted_iff_prefix_rooted (apiReferencePrefix : unit -> string) :
  Forall (fun h => href_rooted_or_http h = true) (map snd (link_hrefs apiReferencePrefix))
  <-> rooted_or_http (apiReferencePrefix tt) = true.
Proof.
  rewrite link_hrefs_listed. split.
  - intros H. rewrite List.Forall_forall in H.
    apply rooted_or_http_before_cli.
    apply (H (Str (apiReferencePrefix tt +:+ "cli.html"))).
    simpl. do 9 right. left. reflexivity.
  - intros H.
    repeat (apply List.Forall_cons;
            [first [reflexivity | simpl; now apply rooted_or_http_append]|]).
    apply List.Forall_nil.
Qed.

End SidebarLinksSpec.

(** ** Further properties of the icon components *)

Module IconsMore.
Import Icons IconsSpec.




(** X5. The two icons differ in their paths only: for the same props their
    svg root elements have the same type and the same attributes, while
    their children are never the same. *)
Theorem icons_share_root_and_differ_in_paths
    {World : Type} (w : World) (props : SVGProps) :
  el_type (emitted (SvgPlusMinusSquareIcon props) w)
  = el_type (emitted (SvgFileIcon props) w)
  /\ el_attrs (emitted (SvgPlusMinusSquareIcon props) w)
     = el_attrs (emitted (SvgFileIcon props) w)
  /\ el_children (emitted (SvgPlusMinusSquareIcon props) w)
     <> el_children (emitted (SvgFileIcon props) w).
Proof.
  unfold emitted.
  rewrite SvgPlusMinusSquareIcon_emits, SvgFileIcon_emits.
  split; [reflexivity | split; [reflexivity |]].
  intros E. apply (f_equal (@length ReactNode)) in E. vm_compute in E. discriminate E.
Qed.

(** X6. The attribute names on the emitted svg root are the caller's names
    together with xmlns, width, height, fill and viewBox, without the names
    key, ref, __self and __source: no other name is added and no other name
    is removed. *)
Theorem root_attribute_names {World : Type} (w : World) (props : SVGProps) :
  dom (el_attrs (emitted (SvgPlusMinusSquareIcon props) w))
  = (dom (attributes props) ∪ {[ "xmlns"; "width"; "height"; "fill"; "viewBox" ]})
    ∖ {[ "key"; "ref"; "__self"; "__source" ]}
  /\ dom (el_attrs (emitted (SvgFileIcon props) w))
     = (dom (attributes props) ∪ {[ "xmlns"; "width"; "height"; "fill"; "viewBox" ]})
       ∖ {[ "key"; "ref"; "__self"; "__source" ]}.
Proof.
  unfold emitted.
  rewrite SvgPlusMinusSquareIcon_emits, SvgFileIcon_emits.
  cbn [fst el_attrs].
  rewrite own_props_dom, dom_union_L, svg_defaults_attributes.
  rewrite !dom_insert_L, dom_singleton_L.
  assert (E : ({[ "xmlns" ]} ∪ ({[ "width" ]} ∪ ({[ "height" ]} ∪ ({[ "fill" ]}
                 ∪ {[ "viewBox" ]}))) : gset string)
              = {[ "xmlns"; "width"; "height"; "fill"; "viewBox" ]}).
  { apply set_eq. intros x. rewrite !elem_of_union. tauto. }
  rewrite E. split; reflexivity.
Qed.

End IconsMore.

(** ** Properties of the exported icons *)

Module IconWrappersSpec.
Import Icons IconsSpec IconWrappers.

Lemma icon_attributes_lookup {World : Type}
    (c : SVGProps -> @Render World ReactNode)
    (props : gmap string (PropValue World)) (forwardedRef : option positive) (k : string) :
  icon_attributes c props forwardedRef !! k
  = if decide (k = "component") then Some (PComponent c)
    else match props !! k with
         | Some v => Some v
         | None => if decide (k = "ref") then Some (PRef forwardedRef) else None
         end.
Proof.
  unfold icon_attributes. rewrite lookup_insert.
  destruct (decide ("component" = k)) as [<-|Hk].
  - rewrite decide_True; reflexivity.
  - rewrite decide_False by congruence.
    rewrite lookup_union, lookup_singleton.
    destruct (props !! k); destruct (decide ("ref" = k)) as [<-|Hr].
    + reflexivity.
    + reflexivity.
    + rewrite decide_True; reflexivity.
    + rewrite decide_False by congruence. reflexivity.
Qed.

(** X7. A caller cannot replace the glyph: whatever props the caller passes,
    also a [component] of its own, [Icon] is handed this icon's svg renderer
    under [component]. *)
Theorem component_is_not_overridable {World : Type} (w : World)
    (props : gmap string (PropValue World)) (forwardedRef : option positive) :
  icon_config (emitted (PlusMinusSquareIcon props forwardedRef) w) !! "component"
  = Some (PComponent SvgPlusMinusSquareIcon)
  /\ icon_config (emitted (FileIcon props forwardedRef) w) !! "component"
     = Some (PComponent SvgFileIcon).
Proof.
  unfold emitted, PlusMinusSquareIcon, FileIcon, ret. cbn [fst icon_config].
  rewrite !icon_attributes_lookup. split; reflexivity.
Qed.



(** X9. The ref handed to [Icon] is the forwarded ref, also when it is
    undefined, unless the props object has a [ref] property of its own, which
    then takes its place. *)
Theorem forwarded_ref_unless_props_ref {World : Type} (w : World)
    (props : gmap string (PropValue World)) (forwardedRef : option positive) :
  icon_config (emitted (PlusMinusSquareIcon props forwardedRef) w) !! "ref"
  = match props !! "ref" with
    | Some v => Some v
    | None => Some (PRef forwardedRef)
    end
  /\ icon_config (emitted (FileIcon props forwardedRef) w) !! "ref"
     = match props !! "ref" with
       | Some v => Some v
       | None => Some (PRef forwardedRef)
       end.
Proof.
  unfold emitted, PlusMinusSquareIcon, FileIcon, ret. cbn [fst icon_config].
  rewrite !icon_attributes_lookup. split; reflexivity.
Qed.


End IconWrappersSpec.
